(** * The world model of bmpc-jax ([bmpc_jax/world_model.py])

    A shallow embedding of the [WorldModel] class: its factory [create] and
    its five operations [encode], [next], [reward], [sample_actions] and [V].

    Arrays are lists of real numbers: floating-point arithmetic is idealised
    as exact real arithmetic, so the statements below hold exactly where the
    program holds them up to rounding. *)

From Stdlib Require Import Reals Lra Lia List Bool Arith.
Import ListNotations.

Open Scope R_scope.

(** ** Arrays and the numeric helpers *)

Definition Array := list R.

(** [jnp.sum] over the last axis. *)
Definition asum (v : Array) : R := fold_right Rplus 0 v.

(** Elementwise product of two arrays of the same length ([x * bins]). *)
Fixpoint amul (u v : Array) : Array :=
  match u, v with
  | x :: u', y :: v' => x * y :: amul u' v'
  | _, _ => []
  end.

(** [jax.nn.softmax] over the last axis. *)
Definition softmax (v : Array) : Array :=
  map (fun x => exp x / asum (map exp v)) v.

(** [jnp.sign]. *)
Definition sign (x : R) : R :=
  if Rlt_dec 0 x then 1 else if Rlt_dec x 0 then -1 else 0.

(** Modelled from the spec: [bmpc_jax.common.util.symlog], which is imported
    by [world_model.py] but is not among the sources; the glossary gives it as
    [sign(x) * log(1 + |x|)]. *)
Definition symlog (x : R) : R := sign x * ln (1 + Rabs x).

(** Modelled from the spec: the inverse of the log-compression, which the
    decoder applies last ("apply the inverse of the log-compression to map
    back to linear scale"). *)
Definition symexp (x : R) : R := sign x * (exp (Rabs x) - 1).

(** [jnp.linspace low high n]: [n] equally spaced points, the spacing being
    [(high - low) / (n - 1)]. *)
Definition linspace (low high : R) (n : nat) : Array :=
  map (fun i => low + INR i * ((high - low) / INR (n - 1))) (seq 0 n).

(** Modelled from the spec: [bmpc_jax.common.util.two_hot_inv], the decoder of
    the distributional codec, which is not among the sources.  Section 4.1:
    softmax over the logits, [num_bins] equally spaced bin centres covering
    the log-compressed version of [[low, high]], that is the interval from
    [symlog low] to [symlog high], the probability-weighted sum of the
    centres, then the inverse of the log-compression. *)
Definition two_hot_inv (logits : Array) (low high : R) (num_bins : nat) : R :=
  symexp
    (asum (amul (softmax logits)
             (linspace (symlog low) (symlog high) num_bins))).

(** Consecutive groups of [size] entries; [fuel] bounds the number of groups. *)
Fixpoint chunk (fuel size : nat) (v : Array) : list Array :=
  match fuel with
  | O => []
  | S fuel' =>
      match v with
      | [] => []
      | _ :: _ => firstn size v :: chunk fuel' size (skipn size v)
      end
  end.

(** Modelled from the spec: [bmpc_jax.common.activations.simnorm], the simplex
    projector, which is not among the sources.  Section 4.2: partition into
    consecutive groups of size [simplex_dim], softmax within each group,
    re-concatenate in the original order.  The input length is divisible by
    the group size by precondition; what happens otherwise is not specified
    (here the shorter last group is normalised on its own). *)
Definition simnorm (v : Array) (simplex_dim : nat) : Array :=
  concat (map softmax (chunk (length v) simplex_dim v)).

(** [x.clip(lo, hi)] on one entry. *)
Definition clip (lo hi x : R) : R := Rmax lo (Rmin x hi).

(** The [k]-th contiguous block of [size] entries of [v]. *)
Definition block (size k : nat) (v : Array) : Array :=
  firstn size (skipn (k * size) v).

(** The simplex-block invariant of a latent state: every block is a
    probability vector. *)
Definition simplex_blocks (size : nat) (v : Array) : Prop :=
  forall k, (k < length v / size)%nat ->
    Forall (fun x => 0 <= x) (block size k v) /\ asum (block size k v) = 1.

(** ** Parameters, observations and module descriptions *)

(** A pytree of arrays: the shape of observations ([PyTree]) and of
    parameter dictionaries ([Dict]). *)
#[warnings="-register-all"]
Inductive PyTree : Type :=
| Leaf (a : Array)
| Node (children : list PyTree).

(** [jax.tree.map]. *)
Fixpoint tree_map (f : Array -> Array) (t : PyTree) : PyTree :=
  match t with
  | Leaf a => Leaf (f a)
  | Node ts => Node (map (tree_map f) ts)
  end.

(** [jax.tree.leaves], in traversal order. *)
Fixpoint leaves (t : PyTree) : list Array :=
  match t with
  | Leaf a => [a]
  | Node ts => flat_map leaves ts
  end.

Inductive Dtype : Type := float16 | bfloat16 | float32 | float64.

Inductive Activation : Type := mish.

Inductive Initializer : Type :=
| zeros
| truncated_normal (stddev : R).

(** The layers the heads are made of, as [create] writes them. *)
Inductive Layer : Type :=
| NormedLinear (features : nat) (activation : option Activation)
    (dropout_rate : option R) (dtype : Dtype)
| Dense (features : nat) (kernel_init : Initializer) (dtype : Dtype).

(** The stages of an optax chain, and the target head's transformation
    [GradientTransformation(lambda _: None, lambda _: None)]. *)
Inductive Transform : Type :=
| zero_nans
| clip_by_global_norm (max_norm : R)
| adamw (learning_rate : R).

Inductive Tx : Type :=
| chain (stages : list Transform)
| no_op.

(** ** Parameter objects

    A head refers to its parameter dictionary, a Python object.  The store
    below holds these objects; a reference is an index into it. *)

Definition Ref := nat.
Definition Heap := list PyTree.

(** Construction runs in a state monad over the store in which a step may
    raise. *)
Definition M (A : Type) : Type := Heap -> option (A * Heap).

Definition ret {A : Type} (a : A) : M A := fun h => Some (a, h).

Definition bind {A B : Type} (c : M A) (k : A -> M B) : M B :=
  fun h => match c h with
           | Some (a, h') => k a h'
           | None => None
           end.

Notation "x <- c ;; k" := (bind c (fun x => k))
  (at level 61, c at next level, right associativity).
Notation "' p <- c ;; k" := (bind c (fun x => let 'p := x in k))
  (at level 61, p pattern, c at next level, right associativity).

Definition raise {A : Type} : M A := fun _ => None.

Definition lift {A : Type} (o : option A) : M A :=
  match o with
  | Some a => ret a
  | None => raise
  end.

(** A new object holding [v]. *)
Definition alloc (v : PyTree) : M Ref := fun h => Some (length h, h ++ [v]).

Definition read (r : Ref) : M PyTree :=
  fun h => match nth_error h r with
           | Some v => Some (v, h)
           | None => None
           end.

(** [copy.deepcopy] of a parameter dictionary: a new object, equal in value. *)
Definition deepcopy (r : Ref) : M Ref := v <- read r ;; alloc v.

(** In-place update of the object at [r] (what an aliased reference would
    let a holder do). *)
Fixpoint write (r : Ref) (v : PyTree) (h : Heap) : Heap :=
  match h, r with
  | [], _ => []
  | _ :: h', O => v :: h'
  | x :: h', S r' => x :: write r' v h'
  end.

(** [flax.training.train_state.TrainState], without the optimiser state that
    optax derives from the parameters. *)
Record TrainState (F : Type) : Type := mkTrainState {
  step : nat;
  apply_fn : F;
  params : Ref;
  tx : Tx
}.
Arguments mkTrainState {F}.
Arguments step {F}.
Arguments apply_fn {F}.
Arguments params {F}.
Arguments tx {F}.

(** [TrainState.create(apply_fn=..., params=..., tx=...)]. *)
Definition TrainState_create {F : Type} (apply_fn : F) (params : Ref) (tx : Tx)
  : TrainState F :=
  mkTrainState 0%nat apply_fn params tx.

(** ** The libraries the model is built on

    jax's key splitting, flax's initialisers and forward functions and the
    standard normal draws behind tensorflow-probability's sampler are taken
    as given. *)
Class Backend : Type := {
  Key : Type;
  (** [jax.random.split(key, num)] *)
  split : Key -> nat -> list Key;
  (** [nn.Sequential(layers).init(key, x)['params']] *)
  sequential_init : list Layer -> Key -> Array -> option PyTree;
  (** [nn.Sequential(layers).apply({'params': params}, x)] *)
  sequential_apply : list Layer -> PyTree -> Array -> Array;
  (** [Ensemble(base, num).init({'params': k1, 'dropout': k2}, x)['params']] *)
  ensemble_init : list Layer -> nat -> Key -> Key -> Array -> option PyTree;
  (** [Ensemble(base, num).apply({'params': params}, x, rngs={'dropout': key})],
      one row of logits per member *)
  ensemble_apply : list Layer -> nat -> PyTree -> Array -> Key -> list Array;
  (** the [i]-th coordinate of the standard normal draw made from [key] *)
  normal : Key -> nat -> R
}.

(** ** The world model *)

Section WorldModel.

Context {backend : Backend}.

(** The calling conventions of the three kinds of forward function:
    [apply_fn({'params': params}, obs, rngs={'dropout': key})] for the
    encoder, [apply_fn({'params': params}, x)] for a sequential head, and
    [apply_fn({'params': params}, z, rngs={'dropout': key})] for the
    ensemble. *)
Definition EncoderFn : Type := PyTree -> PyTree -> Key -> Array.
Definition HeadFn : Type := PyTree -> Array -> Array.
Definition EnsembleFn : Type := PyTree -> Array -> Key -> list Array.

Definition MIN_LOG_STD : R := -5.
Definition MAX_LOG_STD : R := 1.

(** [class WorldModel(struct.PyTreeNode)].  Dimensions and counts are
    natural numbers. *)
Record WorldModel : Type := mkWorldModel {
  (* Models *)
  encoder : TrainState EncoderFn;
  dynamics_model : TrainState HeadFn;
  reward_model : TrainState HeadFn;
  policy_model : TrainState HeadFn;
  value_model : TrainState EnsembleFn;
  target_value_model : TrainState EnsembleFn;
  continue_model : option (TrainState HeadFn);
  (* Spaces *)
  action_dim : nat;
  (* Architecture *)
  latent_dim : nat;
  simnorm_dim : nat;
  num_value_nets : nat;
  num_bins : nat;
  symlog_min : R;
  symlog_max : R;
  predict_continues : bool;
  symlog_obs : bool
}.

(** [jnp.zeros(n)]. *)
Definition jnp_zeros (n : nat) : Array := repeat 0 n.

(** Unpacking the result of [jax.random.split] into five names, and into
    two; Python raises when the count differs. *)
Definition unpack5 (ks : list Key) : M (Key * Key * Key * Key * Key) :=
  match ks with
  | [k1; k2; k3; k4; k5] => ret (k1, k2, k3, k4, k5)
  | _ => raise
  end.

Definition unpack2 (ks : list Key) : M (Key * Key) :=
  match ks with
  | [k1; k2] => ret (k1, k2)
  | _ => raise
  end.

(** [module.init(...)['params']]: the initialiser's result is a new
    parameter object. *)
Definition init_params (p : option PyTree) : M Ref := v <- lift p ;; alloc v.

(** [WorldModel.create].  [max_grad_norm] defaults to 20, [tabulate] to
    False and [dtype] to float32 in the source.  With [tabulate] the source
    prints a summary of each module, which leaves the result as it is;
    printing is not modelled. *)
Definition create
    (* Spaces *)
    (action_dim : nat)
    (* Encoder module *)
    (encoder : TrainState EncoderFn)
    (* World model *)
    (latent_dim : nat)
    (value_dropout : R)
    (num_value_nets : nat)
    (num_bins : nat)
    (symlog_min : R)
    (symlog_max : R)
    (simnorm_dim : nat)
    (predict_continues : bool)
    (symlog_obs : bool)
    (* Optimization *)
    (learning_rate : R)
    (max_grad_norm : R)
    (* Misc *)
    (tabulate : bool)
    (dtype : Dtype)
    (key : Key)
  : M WorldModel :=
  '(dynamics_key, reward_key, value_key, policy_key, continue_key) <-
    unpack5 (split key 5) ;;

  (* Latent forward dynamics model *)
  let dynamics_module := [
    NormedLinear latent_dim (Some mish) None dtype;
    NormedLinear latent_dim (Some mish) None dtype;
    NormedLinear latent_dim None None dtype
  ] in
  dynamics_params <- init_params
    (sequential_init dynamics_module dynamics_key
       (jnp_zeros (latent_dim + action_dim))) ;;
  let dynamics_model := TrainState_create
    (sequential_apply dynamics_module)
    dynamics_params
    (chain [zero_nans; clip_by_global_norm max_grad_norm;
            adamw learning_rate]) in

  (* Transition reward model *)
  let reward_module := [
    NormedLinear latent_dim (Some mish) None dtype;
    NormedLinear latent_dim (Some mish) None dtype;
    Dense num_bins zeros dtype
  ] in
  reward_params <- init_params
    (sequential_init reward_module reward_key
       (jnp_zeros (latent_dim + action_dim))) ;;
  let reward_model := TrainState_create
    (sequential_apply reward_module)
    reward_params
    (chain [zero_nans; clip_by_global_norm max_grad_norm;
            adamw learning_rate]) in

  (* Policy model *)
  let policy_module := [
    NormedLinear latent_dim (Some mish) None dtype;
    NormedLinear latent_dim (Some mish) None dtype;
    Dense (2 * action_dim) (truncated_normal 0.02) dtype
  ] in
  policy_params <- init_params
    (sequential_init policy_module policy_key (jnp_zeros latent_dim)) ;;
  let policy_model := TrainState_create
    (sequential_apply policy_module)
    policy_params
    (chain [zero_nans; clip_by_global_norm max_grad_norm;
            adamw learning_rate]) in

  (* Value model *)
  '(value_param_key, value_dropout_key) <- unpack2 (split value_key 2) ;;
  let value_base := [
    NormedLinear latent_dim (Some mish) (Some value_dropout) dtype;
    NormedLinear latent_dim (Some mish) (Some value_dropout) dtype;
    Dense num_bins zeros dtype
  ] in
  value_params <- init_params
    (ensemble_init value_base num_value_nets
       value_param_key value_dropout_key (jnp_zeros latent_dim)) ;;
  let value_model := TrainState_create
    (ensemble_apply value_base num_value_nets)
    value_params
    (chain [zero_nans; clip_by_global_norm max_grad_norm;
            adamw learning_rate]) in
  target_params <- deepcopy (params value_model) ;;
  let target_value_model := TrainState_create
    (ensemble_apply value_base num_value_nets)
    target_params
    no_op in

  continue_model <-
    (if predict_continues then
       let continue_module := [
         NormedLinear latent_dim (Some mish) None dtype;
         NormedLinear latent_dim (Some mish) None dtype;
         Dense 1 zeros dtype
       ] in
       continue_params <- init_params
         (sequential_init continue_module continue_key
            (jnp_zeros latent_dim)) ;;
       ret (Some (TrainState_create
         (sequential_apply continue_module)
         continue_params
         (chain [zero_nans; clip_by_global_norm max_grad_norm;
                 adamw learning_rate])))
     else
       ret None) ;;

  ret {|
    (* Spaces *)
    action_dim := action_dim;
    (* Models *)
    encoder := encoder;
    dynamics_model := dynamics_model;
    reward_model := reward_model;
    policy_model := policy_model;
    value_model := value_model;
    target_value_model := target_value_model;
    continue_model := continue_model;
    (* Architecture *)
    latent_dim := latent_dim;
    simnorm_dim := simnorm_dim;
    num_value_nets := num_value_nets;
    num_bins := num_bins;
    symlog_min := symlog_min;
    symlog_max := symlog_max;
    predict_continues := predict_continues;
    symlog_obs := symlog_obs
  |}.

(** [WorldModel.encode]. *)
Definition encode (self : WorldModel) (obs : PyTree) (params : PyTree)
    (key : Key) : Array :=
  let obs :=
    if symlog_obs self then tree_map (map symlog) obs else obs in
  let z := apply_fn (encoder self) params obs key in
  simnorm z (simnorm_dim self).

(** [WorldModel.next]. *)
Definition next (self : WorldModel) (z a : Array) (params : PyTree) : Array :=
  let z := apply_fn (dynamics_model self) params (z ++ a) in
  simnorm z (simnorm_dim self).

(** [WorldModel.reward]. *)
Definition reward (self : WorldModel) (z a : Array) (params : PyTree)
  : R * Array :=
  let z := z ++ a in
  let logits := apply_fn (reward_model self) params z in
  let reward :=
    two_hot_inv logits (symlog_min self) (symlog_max self) (num_bins self) in
  (reward, logits).

(** [jnp.split(x, 2, axis=-1)]: the two halves of [x].  jax raises on an odd
    length, which the policy head (of width [2 * action_dim]) never has. *)
Definition jnp_split2 (x : Array) : Array * Array :=
  (firstn (length x / 2) x, skipn (length x / 2) x).

(** [tfd.MultivariateNormalDiag(loc, scale_diag)]: the draw is
    [loc + scale_diag * eps] with [eps] standard normal, and the log-density
    is the sum over the coordinates of the univariate Gaussian
    log-densities. *)
Record MultivariateNormalDiag : Type := mkMVN {
  loc : Array;
  scale_diag : Array
}.

Fixpoint affine (i : nat) (loc scale : Array) (key : Key) : Array :=
  match loc, scale with
  | m :: loc', s :: scale' =>
      m + s * normal key i :: affine (S i) loc' scale' key
  | _, _ => []
  end.

Definition sample (dist : MultivariateNormalDiag) (key : Key) : Array :=
  affine 0 (loc dist) (scale_diag dist) key.

Definition normal_log_prob (m s x : R) : R :=
  - ((x - m) / s)² / 2 - ln s - ln (2 * PI) / 2.

Fixpoint log_prob_sum (loc scale x : Array) : R :=
  match loc, scale, x with
  | m :: loc', s :: scale', y :: x' =>
      normal_log_prob m s y + log_prob_sum loc' scale' x'
  | _, _, _ => 0
  end.

Definition log_prob (dist : MultivariateNormalDiag) (x : Array) : R :=
  log_prob_sum (loc dist) (scale_diag dist) x.

(** [WorldModel.sample_actions]; [std_scale] defaults to 1 in the source. *)
Definition sample_actions (self : WorldModel) (z : Array) (params : PyTree)
    (std_scale : R) (key : Key) : Array * Array * Array * R :=
  (* Chunk the policy model output to get mean and logstd *)
  let '(mean, log_std) :=
    jnp_split2 (apply_fn (policy_model self) params z) in
  let mean := map tanh mean in
  let log_std :=
    map (fun l => MIN_LOG_STD + (MAX_LOG_STD - MIN_LOG_STD) *
                  0.5 * (tanh l + 1)) log_std in
  let std := map (fun l => std_scale * exp l) log_std in

  (* Sample action and compute logprobs *)
  let dist := mkMVN mean std in
  let action := sample dist key in
  let log_probs := log_prob dist action in

  (map (clip (-1) 1) action, mean, log_std, log_probs).

(** [WorldModel.V].  The decoder reduces over the last axis, so on the
    stacked logits of the ensemble it decodes each member's row. *)
Definition V (self : WorldModel) (z : Array) (params : PyTree) (key : Key)
  : list R * list Array :=
  let logits := apply_fn (value_model self) params z key in
  let V :=
    map (fun l => two_hot_inv l (symlog_min self) (symlog_max self)
                    (num_bins self)) logits in
  (V, logits).

End WorldModel.

(** ** A concrete instance

    A backend whose initialisers fill the parameters with zeros, whose
    forward functions return zeros of the width of the last layer and whose
    normal draws are all zero.  It serves to run [create] and the operations
    on concrete inputs. *)

Definition layer_width (l : Layer) : nat :=
  match l with
  | NormedLinear features _ _ _ => features
  | Dense features _ _ => features
  end.

Definition out_width (layers : list Layer) : nat :=
  layer_width (last layers (Dense 0 zeros float32)).

Definition zero_params (layers : list Layer) : PyTree :=
  Node (map (fun l => Leaf (repeat 0 (layer_width l))) layers).

Definition zero_backend : Backend := {|
  Key := list nat;
  split := fun k n => map (fun i => k ++ [i]) (seq 0 n);
  sequential_init := fun layers _ _ => Some (zero_params layers);
  sequential_apply := fun layers _ _ => repeat 0 (out_width layers);
  ensemble_init := fun layers num _ _ _ =>
    Some (Node (repeat (zero_params layers) num));
  ensemble_apply := fun layers num _ _ _ =>
    repeat (repeat 0 (out_width layers)) num;
  normal := fun _ _ => 0
|}.

(** An encoder of output width 8 whose parameters are the object at
    reference 0 of [demo_heap]. *)
Definition demo_encoder : TrainState (@EncoderFn zero_backend) :=
  TrainState_create (fun _ _ _ => repeat 0 8) 0%nat no_op.

Definition demo_heap : Heap := [Node []].

(** The configuration of the end-to-end scenario of the specification:
    [latent_dim=8], [simnorm_dim=4], [action_dim=2], [num_bins=11],
    [symlog_min=-10], [symlog_max=10], [num_value_nets=3]. *)
Definition demo_create (predict_continues : bool)
  : M (@WorldModel zero_backend) :=
  @create zero_backend 2 demo_encoder 8 0.01 3 11 (-10) 10 4
    predict_continues false 0.0003 20 false float32 [].

(** A configuration the specification calls invalid: [latent_dim=7] is not
    a multiple of [simnorm_dim=4], and [num_bins=1]. *)
Definition invalid_create : M (@WorldModel zero_backend) :=
  @create zero_backend 2 demo_encoder 7 0.01 3 1 (-10) 10 4
    false false 0.0003 20 false float32 [].

(** The components of the tuple that [sample_actions] returns:
    [action.clip(-1, 1), mean, log_std, log_probs]. *)
Definition out_action (r : Array * Array * Array * R) : Array :=
  fst (fst (fst r)).
Definition out_mean (r : Array * Array * Array * R) : Array :=
  snd (fst (fst r)).
Definition out_log_std (r : Array * Array * Array * R) : Array :=
  snd (fst r).
Definition out_log_prob (r : Array * Array * Array * R) : R := snd r.

(** The density of the univariate Gaussian of mean [m] and standard
    deviation [s], and the joint density of independent coordinates. *)
Definition gaussian_pdf (m s x : R) : R :=
  / (s * sqrt (2 * PI)) * exp (- ((x - m) / s)² / 2).

Fixpoint joint_density (loc scale x : Array) : R :=
  match loc, scale, x with
  | m :: loc', s :: scale', y :: x' =>
      gaussian_pdf m s y * joint_density loc' scale' x'
  | _, _, _ => 1
  end.

(** The model that [demo_create false] returns on [demo_heap]. *)
Definition demo_model : @WorldModel zero_backend :=
  let body := fun last =>
    [NormedLinear 8 (Some mish) None float32;
     NormedLinear 8 (Some mish) None float32; last] in
  let value_base :=
    [NormedLinear 8 (Some mish) (Some 0.01) float32;
     NormedLinear 8 (Some mish) (Some 0.01) float32;
     Dense 11 zeros float32] in
  let optimizer :=
    chain [zero_nans; clip_by_global_norm 20; adamw 0.0003] in
  {|
    encoder := demo_encoder;
    dynamics_model := TrainState_create
      (@sequential_apply zero_backend
         (body (NormedLinear 8 None None float32))) 1%nat optimizer;
    reward_model := TrainState_create
      (@sequential_apply zero_backend (body (Dense 11 zeros float32)))
      2%nat optimizer;
    policy_model := TrainState_create
      (@sequential_apply zero_backend
         (body (Dense 4 (truncated_normal 0.02) float32))) 3%nat optimizer;
    value_model := TrainState_create
      (@ensemble_apply zero_backend value_base 3) 4%nat optimizer;
    target_value_model := TrainState_create
      (@ensemble_apply zero_backend value_base 3) 5%nat no_op;
    continue_model := None;
    action_dim := 2;
    latent_dim := 8;
    simnorm_dim := 4;
    num_value_nets := 3;
    num_bins := 11;
    symlog_min := -10;
    symlog_max := 10;
    predict_continues := false;
    symlog_obs := false
  |}.

(** [demo_model] after training has replaced its heads: every head keeps
    its forward function and refers to another parameter object, at a later
    step; the target head and the configuration are as before. *)
Definition demo_model_trained : @WorldModel zero_backend :=
  let moved := fun (F : Type) (ts : TrainState F) (r : Ref) =>
    mkTrainState 1%nat (apply_fn ts) r (tx ts) in
  {|
    encoder := moved _ (encoder demo_model) 6%nat;
    dynamics_model := moved _ (dynamics_model demo_model) 7%nat;
    reward_model := moved _ (reward_model demo_model) 8%nat;
    policy_model := moved _ (policy_model demo_model) 9%nat;
    value_model := moved _ (value_model demo_model) 10%nat;
    target_value_model := target_value_model demo_model;
    continue_model := None;
    action_dim := 2;
    latent_dim := 8;
    simnorm_dim := 4;
    num_value_nets := 3;
    num_bins := 11;
    symlog_min := -10;
    symlog_max := 10;
    predict_continues := false;
    symlog_obs := false
  |}.

(** The log-density of a Gaussian draw written in terms of the noise: the
    sum over the coordinates, from the [i]-th draw on, of
    [- eps² / 2 - (ln std_scale + log_std) - ln (2 * PI) / 2]. *)
Fixpoint noise_log_prob {backend : Backend} (i : nat) (std_scale : R)
    (log_std : Array) (key : Key) : R :=
  match log_std with
  | [] => 0
  | l :: log_std' =>
      (- (normal key i)² / 2 - (ln std_scale + l) - ln (2 * PI) / 2)
      + noise_log_prob (S i) std_scale log_std' key
  end.

(** ** Numeric lemmas *)

Lemma asum_exp_pos (v : Array) : v <> [] -> 0 < asum (map exp v).
Proof.
  destruct v as [|x v]; [congruence | intros _].
  simpl. assert (H : 0 <= asum (map exp v)).
  { induction v as [|y v IH]; simpl; [lra |].
    pose proof (exp_pos y). lra. }
  pose proof (exp_pos x). lra.
Qed.

Lemma asum_map_div (f : R -> R) (c : R) (v : Array) :
  asum (map (fun x => f x / c) v) = asum (map f v) / c.
Proof.
  induction v as [|x v IH]; simpl; [lra | rewrite IH; lra].
Qed.

Lemma softmax_length (v : Array) : length (softmax v) = length v.
Proof. apply length_map. Qed.

Lemma softmax_nonneg (v : Array) : Forall (fun x => 0 <= x) (softmax v).
Proof.
  destruct v as [|y v]; [constructor |].
  assert (Hs : 0 < asum (map exp (y :: v))) by (apply asum_exp_pos; congruence).
  unfold softmax. apply Forall_forall. intros p Hp.
  apply in_map_iff in Hp. destruct Hp as [x [<- _]].
  apply Rlt_le, Rdiv_lt_0_compat; [apply exp_pos | exact Hs].
Qed.

Lemma softmax_sum (v : Array) : v <> [] -> asum (softmax v) = 1.
Proof.
  intros Hv. unfold softmax. rewrite asum_map_div.
  pose proof (asum_exp_pos v Hv). field. lra.
Qed.

Lemma tanh_bounds (x : R) : -1 < tanh x < 1.
Proof.
  unfold tanh, sinh, cosh.
  pose proof (exp_pos x) as Ha. pose proof (exp_pos (- x)) as Hb.
  set (a := exp x) in *. set (b := exp (- x)) in *.
  assert (E : (a - b) / 2 / ((a + b) / 2) = (a - b) * / (a + b))
    by (field; lra).
  rewrite E.
  assert (Ht : 0 < / (a + b)) by (apply Rinv_0_lt_compat; lra).
  assert (E1 : (a + b) * / (a + b) = 1) by (field; lra).
  split; nra.
Qed.

Lemma clip_bounds (x : R) : -1 <= clip (-1) 1 x <= 1.
Proof.
  unfold clip. split.
  - apply Rmax_l.
  - apply Rmax_lub; [lra | apply Rmin_r].
Qed.

Lemma clip_id (x : R) : -1 <= x <= 1 -> clip (-1) 1 x = x.
Proof.
  intros [Hlo Hhi]. unfold clip.
  rewrite Rmin_left by exact Hhi. apply Rmax_right. exact Hlo.
Qed.

(** The simplex projector. *)

Lemma chunk_nil (fuel size : nat) : chunk fuel size [] = [].
Proof. destruct fuel; reflexivity. Qed.

Lemma simnorm_aux (size : nat) :
  (0 < size)%nat ->
  forall (m fuel : nat) (v : Array),
    length v = (m * size)%nat -> (length v <= fuel)%nat ->
    let out := concat (map softmax (chunk fuel size v)) in
    length out = (m * size)%nat /\
    forall k, (k < m)%nat ->
      Forall (fun x => 0 <= x) (block size k out) /\
      asum (block size k out) = 1.
Proof.
  intros Hsize m. induction m as [|m IH]; intros fuel v Hlen Hfuel.
  - destruct v; [| discriminate Hlen]. rewrite chunk_nil. simpl.
    split; [reflexivity | intros k Hk; lia].
  - assert (Hv : (size <= length v)%nat) by (rewrite Hlen; simpl; lia).
    destruct fuel as [|fuel]; [lia |].
    destruct v as [|x v]; [simpl in Hv; lia |].
    cbn [chunk map concat].
    set (w := x :: v) in *.
    assert (Hfirst : length (firstn size w) = size)
      by (rewrite length_firstn; lia).
    assert (Hrest : length (skipn size w) = (m * size)%nat)
      by (rewrite length_skipn, Hlen; simpl; lia).
    assert (Hfuel' : (length (skipn size w) <= fuel)%nat)
      by (rewrite length_skipn; lia).
    destruct (IH fuel (skipn size w) Hrest Hfuel') as [IHlen IHblk].
    set (rest := concat (map softmax (chunk fuel size (skipn size w)))) in *.
    assert (Hhead : length (softmax (firstn size w)) = size)
      by (rewrite softmax_length; exact Hfirst).
    split.
    + rewrite length_app, Hhead, IHlen. simpl. lia.
    + intros k Hk. unfold block. destruct k as [|k].
      * simpl. rewrite firstn_app, Hhead, Nat.sub_diag. simpl.
        rewrite app_nil_r.
        rewrite firstn_all2 by (rewrite Hhead; apply Nat.le_refl).
        split; [apply softmax_nonneg |].
        apply softmax_sum. intros Hnil. rewrite Hnil in Hfirst.
        simpl in Hfirst. lia.
      * replace (S k * size)%nat with (size + k * size)%nat by (simpl; lia).
        rewrite skipn_app, Hhead.
        rewrite skipn_all2 by (rewrite Hhead; lia).
        replace (size + k * size - size)%nat with (k * size)%nat by lia.
        simpl. apply IHblk. lia.
Qed.

Lemma simnorm_simplex (v : Array) (size m : nat) :
  (0 < size)%nat -> length v = (m * size)%nat ->
  length (simnorm v size) = length v /\ simplex_blocks size (simnorm v size).
Proof.
  intros Hsize Hlen. unfold simnorm.
  destruct (simnorm_aux size Hsize m (length v) v Hlen (Nat.le_refl _))
    as [Hl Hb].
  split; [rewrite Hl, Hlen; reflexivity |].
  intros k Hk. apply Hb. rewrite Hl in Hk.
  rewrite Nat.div_mul in Hk by lia. exact Hk.
Qed.

(** The decoder. *)

















(** The Gaussian. *)

Lemma exp_normal_log_prob (m s x : R) :
  0 < s -> exp (normal_log_prob m s x) = gaussian_pdf m s x.
Proof.
  intros Hs. unfold normal_log_prob, gaussian_pdf.
  assert (Hpi : 0 < 2 * PI) by (pose proof PI_RGT_0; lra).
  assert (Hsq : exp (ln (2 * PI) / 2) = sqrt (2 * PI)).
  { rewrite <- (Rpower_sqrt _ Hpi). unfold Rpower. f_equal. lra. }
  replace (- ((x - m) / s)² / 2 - ln s - ln (2 * PI) / 2)
    with (- ((x - m) / s)² / 2 + (- ln s + - (ln (2 * PI) / 2))) by lra.
  rewrite !exp_plus, !exp_Ropp, exp_ln, Hsq by exact Hs.
  pose proof (sqrt_lt_R0 _ Hpi). field. lra.
Qed.

Lemma exp_log_prob_sum :
  forall ms ss xs : Array,
    Forall (fun s => 0 < s) ss ->
    exp (log_prob_sum ms ss xs) = joint_density ms ss xs.
Proof.
  induction ms as [|m ms IH]; intros ss xs Hs.
  - simpl. apply exp_0.
  - destruct ss as [|s ss]; [simpl; apply exp_0 |].
    destruct xs as [|y xs]; [simpl; apply exp_0 |].
    inversion Hs as [|? ? Hs0 Hs']; subst.
    simpl. rewrite exp_plus, exp_normal_log_prob, IH by assumption.
    reflexivity.
Qed.

(** ** Construction *)

Lemma bind_Some {A B : Type} (c : M A) (k : A -> M B) (h h' : Heap) (b : B) :
  bind c k h = Some (b, h') ->
  exists a h1, c h = Some (a, h1) /\ k a h1 = Some (b, h').
Proof.
  unfold bind. destruct (c h) as [[a h1]|]; [| discriminate].
  intros H. exists a, h1. split; [reflexivity | exact H].
Qed.

Lemma ret_Some {A : Type} (a b : A) (h h' : Heap) :
  ret a h = Some (b, h') -> b = a /\ h' = h.
Proof. unfold ret. intros H. inversion H. split; reflexivity. Qed.

Lemma init_params_Some (p : option PyTree) (h h' : Heap) (r : Ref) :
  init_params p h = Some (r, h') ->
  exists v, p = Some v /\ r = length h /\ h' = h ++ [v].
Proof.
  unfold init_params, bind, lift, alloc. destruct p as [v|]; simpl.
  - intros H. inversion H. exists v. repeat split.
  - discriminate.
Qed.

Lemma deepcopy_Some (r r' : Ref) (h h' : Heap) :
  deepcopy r h = Some (r', h') ->
  exists v, nth_error h r = Some v /\ r' = length h /\ h' = h ++ [v].
Proof.
  unfold deepcopy, bind, read, alloc.
  destruct (nth_error h r) as [v|]; [| discriminate].
  intros H. inversion H. exists v. repeat split.
Qed.

Lemma nth_error_snoc (h : Heap) (v : PyTree) :
  nth_error (h ++ [v]) (length h) = Some v.
Proof.
  rewrite nth_error_app2 by lia. rewrite Nat.sub_diag. reflexivity.
Qed.

Lemma write_other (r r' : Ref) (v : PyTree) (h : Heap) :
  r <> r' -> nth_error (write r v h) r' = nth_error h r'.
Proof.
  revert r r'. induction h as [|x h IH]; intros r r' Hne.
  - destruct r; reflexivity.
  - destruct r as [|r]; destruct r' as [|r']; simpl; try reflexivity.
    + congruence.
    + apply IH. congruence.
Qed.

Section Construction.

Context {backend : Backend}.

Lemma unpack5_Some (ks : list Key) (h h' : Heap)
    (t : Key * Key * Key * Key * Key) :
  unpack5 ks h = Some (t, h') ->
  exists k1 k2 k3 k4 k5,
    ks = [k1; k2; k3; k4; k5] /\ t = (k1, k2, k3, k4, k5) /\ h' = h.
Proof.
  unfold unpack5.
  destruct ks as [|k1 [|k2 [|k3 [|k4 [|k5 [|k6 ks]]]]]]; try discriminate.
  intros H. apply ret_Some in H. destruct H as [-> ->].
  exists k1, k2, k3, k4, k5. repeat split.
Qed.

Lemma unpack2_Some (ks : list Key) (h h' : Heap) (t : Key * Key) :
  unpack2 ks h = Some (t, h') ->
  exists k1 k2, ks = [k1; k2] /\ t = (k1, k2) /\ h' = h.
Proof.
  unfold unpack2. destruct ks as [|k1 [|k2 [|k3 ks]]]; try discriminate.
  intros H. apply ret_Some in H. destruct H as [-> ->].
  exists k1, k2. repeat split.
Qed.

Variables (adim ldim nnets nbins sdim : nat).
Variables (vdrop smin smax lrate gnorm : R).
Variables (sobs tab : bool) (dt : Dtype).
Variable enc : TrainState EncoderFn.

Let dynamics_module := [
  NormedLinear ldim (Some mish) None dt;
  NormedLinear ldim (Some mish) None dt;
  NormedLinear ldim None None dt ].

Let reward_module := [
  NormedLinear ldim (Some mish) None dt;
  NormedLinear ldim (Some mish) None dt;
  Dense nbins zeros dt ].

Let policy_module := [
  NormedLinear ldim (Some mish) None dt;
  NormedLinear ldim (Some mish) None dt;
  Dense (2 * adim) (truncated_normal 0.02) dt ].

Let value_base := [
  NormedLinear ldim (Some mish) (Some vdrop) dt;
  NormedLinear ldim (Some mish) (Some vdrop) dt;
  Dense nbins zeros dt ].

Let continue_module := [
  NormedLinear ldim (Some mish) None dt;
  NormedLinear ldim (Some mish) None dt;
  Dense 1 zeros dt ].

Let optimizer :=
  chain [zero_nans; clip_by_global_norm gnorm; adamw lrate].

Let create_with (pc : bool) (key : Key) : M WorldModel :=
  create adim enc ldim vdrop nnets nbins
    smin smax sdim pc sobs
    lrate gnorm tab dt key.

(** What a successful run of [create] did: the keys it drew, the parameter
    objects it allocated, in order, and the model it returned. *)
Lemma create_inv (pc : bool) (key : Key) (h h' : Heap)
    (wm : WorldModel) :
  create_with pc key h = Some (wm, h') ->
  exists dk rk vk pk ck vpk vdk dv rv pv vv cont cm,
    split key 5 = [dk; rk; vk; pk; ck] /\
    split vk 2 = [vpk; vdk] /\
    sequential_init dynamics_module dk (jnp_zeros (ldim + adim))
      = Some dv /\
    sequential_init reward_module rk (jnp_zeros (ldim + adim))
      = Some rv /\
    sequential_init policy_module pk (jnp_zeros ldim) = Some pv /\
    ensemble_init value_base nnets vpk vdk (jnp_zeros ldim)
      = Some vv /\
    (if pc
     then exists cv,
       sequential_init continue_module ck (jnp_zeros ldim) = Some cv /\
       cont = [cv] /\
       cm = Some (TrainState_create (sequential_apply continue_module)
                    (5 + length h)%nat optimizer)
     else cont = [] /\ cm = None) /\
    h' = h ++ [dv; rv; pv; vv; vv] ++ cont /\
    wm = {|
      encoder := enc;
      dynamics_model := TrainState_create (sequential_apply dynamics_module)
                          (length h) optimizer;
      reward_model := TrainState_create (sequential_apply reward_module)
                        (1 + length h)%nat optimizer;
      policy_model := TrainState_create (sequential_apply policy_module)
                        (2 + length h)%nat optimizer;
      value_model := TrainState_create
                       (ensemble_apply value_base nnets)
                       (3 + length h)%nat optimizer;
      target_value_model := TrainState_create
                              (ensemble_apply value_base nnets)
                              (4 + length h)%nat no_op;
      continue_model := cm;
      action_dim := adim;
      latent_dim := ldim;
      simnorm_dim := sdim;
      num_value_nets := nnets;
      num_bins := nbins;
      symlog_min := smin;
      symlog_max := smax;
      predict_continues := pc;
      symlog_obs := sobs
    |}.
Proof.
  unfold create_with, create. intros H.
  apply bind_Some in H. destruct H as (ks & h0 & E & H).
  apply unpack5_Some in E.
  destruct E as (dk & rk & vk & pk & ck & Esplit & -> & ->).
  cbv beta iota zeta in H.
  apply bind_Some in H. destruct H as (r1 & h1 & E & H).
  apply init_params_Some in E. destruct E as (dv & Edv & -> & ->).
  apply bind_Some in H. destruct H as (r2 & h2 & E & H).
  apply init_params_Some in E. destruct E as (rv & Erv & -> & ->).
  apply bind_Some in H. destruct H as (r3 & h3 & E & H).
  apply init_params_Some in E. destruct E as (pv & Epv & -> & ->).
  apply bind_Some in H. destruct H as (ks2 & h4 & E & H).
  apply unpack2_Some in E. destruct E as (vpk & vdk & Esplit2 & -> & ->).
  cbv beta iota zeta in H.
  apply bind_Some in H. destruct H as (r4 & h5 & E & H).
  apply init_params_Some in E. destruct E as (vv & Evv & -> & ->).
  apply bind_Some in H. destruct H as (r5 & h6 & E & H).
  apply deepcopy_Some in E. destruct E as (vv' & Eread & -> & ->).
  cbn [params TrainState_create] in Eread.
  rewrite nth_error_snoc in Eread. injection Eread as <-.
  apply bind_Some in H. destruct H as (cm & h7 & E & H).
  apply ret_Some in H. destruct H as [-> ->].
  assert (L1 : length (h ++ [dv]) = (1 + length h)%nat)
    by (rewrite length_app; simpl; lia).
  assert (L2 : length ((h ++ [dv]) ++ [rv]) = (2 + length h)%nat)
    by (rewrite !length_app; simpl; lia).
  assert (L3 : length (((h ++ [dv]) ++ [rv]) ++ [pv]) = (3 + length h)%nat)
    by (rewrite !length_app; simpl; lia).
  assert (L4 : length ((((h ++ [dv]) ++ [rv]) ++ [pv]) ++ [vv])
               = (4 + length h)%nat)
    by (rewrite !length_app; simpl; lia).
  assert (L5 : length (((((h ++ [dv]) ++ [rv]) ++ [pv]) ++ [vv]) ++ [vv])
               = (5 + length h)%nat)
    by (rewrite !length_app; simpl; lia).
  rewrite L1, L2, L3, L4.
  destruct pc.
  - apply bind_Some in E. destruct E as (r6 & h8 & E & H).
    apply init_params_Some in E. destruct E as (cv & Ecv & -> & ->).
    apply ret_Some in H. destruct H as [-> ->].
    rewrite L5.
    exists dk, rk, vk, pk, ck, vpk, vdk, dv, rv, pv, vv, [cv].
    eexists. repeat split; try eassumption.
    + exists cv. repeat split. exact Ecv.
    + rewrite <- !app_assoc. reflexivity.
  - apply ret_Some in E. destruct E as [-> ->].
    exists dk, rk, vk, pk, ck, vpk, vdk, dv, rv, pv, vv, [].
    eexists. repeat split; try eassumption.
    rewrite <- !app_assoc. reflexivity.
Qed.

(** C5: immediately after [create] returns, the target value head holds the
    same parameter values as the live value ensemble and the same forward
    function, in a parameter object of its own: the two references differ,
    and updating the live object in place leaves the target's parameters as
    they were. *)
Theorem target_value_model_is_copy (pc : bool) (key : Key) (h h' : Heap)
    (wm : WorldModel) :
  create_with pc key h = Some (wm, h') ->
  (exists v,
     nth_error h' (params (value_model wm)) = Some v /\
     nth_error h' (params (target_value_model wm)) = Some v) /\
  apply_fn (target_value_model wm) = apply_fn (value_model wm) /\
  params (target_value_model wm) <> params (value_model wm) /\
  (forall v',
     nth_error (write (params (value_model wm)) v' h')
       (params (target_value_model wm))
     = nth_error h' (params (target_value_model wm))).
Proof.
  intros H. apply create_inv in H.
  destruct H as (dk & rk & vk & pk & ck & vpk & vdk & dv & rv & pv & vv
                 & cont & cm & _ & _ & _ & _ & _ & _ & _ & -> & ->).
  cbn [value_model target_value_model params apply_fn TrainState_create].
  assert (E3 : nth_error (h ++ [dv; rv; pv; vv; vv] ++ cont) (3 + length h)
               = Some vv).
  { rewrite nth_error_app2 by lia.
    replace (3 + length h - length h)%nat with 3%nat by lia. reflexivity. }
  assert (E4 : nth_error (h ++ [dv; rv; pv; vv; vv] ++ cont) (4 + length h)
               = Some vv).
  { rewrite nth_error_app2 by lia.
    replace (4 + length h - length h)%nat with 4%nat by lia. reflexivity. }
  split; [exists vv; split; assumption |].
  split; [reflexivity |].
  split; [lia |].
  intros v'. apply write_other. lia.
Qed.

(** C10: two calls of [create] that differ only in [predict_continues]
    return the same dynamics, reward, policy, value and target-value heads,
    and every parameter object allocated before the continuation head holds
    the same values in both stores; the two models differ in the
    continuation head and the flag alone. *)
Theorem predict_continues_leaves_other_heads (key : Key) (h h1 h2 : Heap)
    (wm1 wm2 : WorldModel) :
  create_with true key h = Some (wm1, h1) ->
  create_with false key h = Some (wm2, h2) ->
  dynamics_model wm1 = dynamics_model wm2 /\
  reward_model wm1 = reward_model wm2 /\
  policy_model wm1 = policy_model wm2 /\
  value_model wm1 = value_model wm2 /\
  target_value_model wm1 = target_value_model wm2 /\
  (forall r, (r < 5 + length h)%nat -> nth_error h1 r = nth_error h2 r) /\
  (exists cv, h1 = h2 ++ [cv]).
Proof.
  intros H1 H2. apply create_inv in H1. apply create_inv in H2.
  destruct H1 as (dk & rk & vk & pk & ck & vpk & vdk & dv & rv & pv & vv
                  & cont & cm & Es & Es2 & Ed & Er & Ep & Ev & Hc & -> & ->).
  destruct H2 as (dk' & rk' & vk' & pk' & ck' & vpk' & vdk' & dv' & rv' & pv'
                  & vv' & cont' & cm' & Es' & Es2' & Ed' & Er' & Ep' & Ev'
                  & Hc' & -> & ->).
  rewrite Es in Es'. injection Es' as <- <- <- <- <-.
  rewrite Es2 in Es2'. injection Es2' as <- <-.
  rewrite Ed in Ed'. injection Ed' as <-.
  rewrite Er in Er'. injection Er' as <-.
  rewrite Ep in Ep'. injection Ep' as <-.
  rewrite Ev in Ev'. injection Ev' as <-.
  destruct Hc as (cv & _ & -> & _). destruct Hc' as [-> _].
  cbn [dynamics_model reward_model policy_model value_model
       target_value_model].
  repeat (split; [reflexivity |]).
  split.
  - intros r Hr. rewrite !app_assoc.
    rewrite (nth_error_app1 _ [cv]) by (rewrite length_app; simpl; lia).
    rewrite app_nil_r. reflexivity.
  - exists cv. rewrite app_nil_r, <- app_assoc. reflexivity.
Qed.

(** C1, as the code has it: [create] validates nothing.  Whenever key
    splitting yields the number of keys asked for and the initialisers of the
    heads succeed, it returns a model that records [latent_dim],
    [simnorm_dim] and [num_bins] as given, whatever their values: also when
    [latent_dim] is not a multiple of [simnorm_dim], and when
    [num_bins < 2]. *)
Theorem create_validates_nothing (pc : bool) (key : Key) (h : Heap) :
  (forall k n, length (split k n) = n) ->
  (forall layers k x, sequential_init layers k x <> None) ->
  (forall layers num k1 k2 x, ensemble_init layers num k1 k2 x <> None) ->
  exists wm h',
    create_with pc key h = Some (wm, h') /\
    latent_dim wm = ldim /\ simnorm_dim wm = sdim /\ num_bins wm = nbins.
Proof.
  intros Hsplit Hseq Hens.
  unfold create_with, create.
  pose proof (Hsplit key 5%nat) as L5.
  destruct (split key 5) as [|dk [|rk [|vk [|pk [|ck [|k6 ks]]]]]];
    try discriminate L5.
  cbv beta iota zeta
    delta [bind init_params deepcopy read alloc lift ret raise unpack5
           params TrainState_create].
  destruct (sequential_init _ dk _) as [dv|] eqn:Ed;
    [| exfalso; exact (Hseq _ _ _ Ed)].
  destruct (sequential_init _ rk _) as [rv|] eqn:Er;
    [| exfalso; exact (Hseq _ _ _ Er)].
  destruct (sequential_init _ pk _) as [pv|] eqn:Ep;
    [| exfalso; exact (Hseq _ _ _ Ep)].
  pose proof (Hsplit vk 2%nat) as L2.
  destruct (split vk 2) as [|vpk [|vdk [|k3 ks]]]; try discriminate L2.
  cbv beta iota zeta delta [unpack2 ret].
  destruct (ensemble_init _ _ vpk vdk _) as [vv|] eqn:Ev;
    [| exfalso; exact (Hens _ _ _ _ _ Ev)].
  rewrite nth_error_snoc.
  destruct pc.
  - destruct (sequential_init _ ck _) as [cv|] eqn:Ec;
      [| exfalso; exact (Hseq _ _ _ Ec)].
    eexists. eexists. split; [reflexivity |]. repeat split.
  - eexists. eexists. split; [reflexivity |]. repeat split.
Qed.

End Construction.

(** C5 on the demonstration configuration. *)
Lemma target_value_model_is_copy_witness :
  exists wm h',
    demo_create false demo_heap = Some (wm, h') /\
    (exists v,
       nth_error h' (params (value_model wm)) = Some v /\
       nth_error h' (params (target_value_model wm)) = Some v) /\
    params (target_value_model wm) <> params (value_model wm).
Proof.
  destruct (demo_create false demo_heap) as [[wm h']|] eqn:E;
    [| discriminate E].
  exists wm, h'. split; [reflexivity |].
  unfold demo_create in E.
  destruct (target_value_model_is_copy _ _ _ _ _ _ _ _ _ _ _ _ _ _ _ _ _ _ _
              E) as (Hv & _ & Hne & _).
  split; assumption.
Defined.

(** C10 on the demonstration configuration: both calls return. *)
Lemma predict_continues_leaves_other_heads_witness :
  exists wm1 h1 wm2 h2,
    demo_create true demo_heap = Some (wm1, h1) /\
    demo_create false demo_heap = Some (wm2, h2) /\
    dynamics_model wm1 = dynamics_model wm2 /\
    reward_model wm1 = reward_model wm2 /\
    policy_model wm1 = policy_model wm2 /\
    value_model wm1 = value_model wm2 /\
    target_value_model wm1 = target_value_model wm2.
Proof.
  destruct (demo_create true demo_heap) as [[wm1 h1]|] eqn:E1;
    [| discriminate E1].
  destruct (demo_create false demo_heap) as [[wm2 h2]|] eqn:E2;
    [| discriminate E2].
  exists wm1, h1, wm2, h2. split; [reflexivity |]. split; [reflexivity |].
  unfold demo_create in E1, E2.
  destruct (predict_continues_leaves_other_heads
              _ _ _ _ _ _ _ _ _ _ _ _ _ _ _ _ _ _ _ _ E1 E2)
    as (Hd & Hr & Hp & Hv & Ht & _).
  repeat split; assumption.
Defined.

(** The claim C1 fails on the code: with [latent_dim = 7], which is not a
    multiple of [simnorm_dim = 4], and with [num_bins = 1], [create] returns
    a model. *)
Lemma create_accepts_invalid_configuration :
  (7 mod 4 <> 0)%nat /\ (1 < 2)%nat /\
  exists wm h',
    invalid_create demo_heap = Some (wm, h') /\
    latent_dim wm = 7%nat /\ simnorm_dim wm = 4%nat /\ num_bins wm = 1%nat.
Proof.
  split; [simpl; lia |]. split; [lia |].
  unfold invalid_create, create. simpl.
  eexists. eexists. split; [reflexivity |]. repeat split.
Qed.

(** C1 as amended, on the same configuration. *)
Lemma create_validates_nothing_witness :
  exists wm h',
    invalid_create demo_heap = Some (wm, h') /\
    latent_dim wm = 7%nat /\ simnorm_dim wm = 4%nat /\ num_bins wm = 1%nat.
Proof.
  unfold invalid_create.
  apply (create_validates_nothing (backend := zero_backend)).
  - intros k n. simpl. rewrite length_map. apply length_seq.
  - intros layers k x. simpl. discriminate.
  - intros layers num k1 k2 x. simpl. discriminate.
Defined.

(** ** The operations *)

Lemma leaves_tree_map (f : Array -> Array) (t : PyTree) :
  leaves (tree_map f t) = map f (leaves t).
Proof.
  revert t. fix IH 1. intros [a | ts]; simpl.
  - reflexivity.
  - induction ts as [|t ts IHts]; simpl.
    + reflexivity.
    + rewrite map_app, IH, IHts. reflexivity.
Qed.

Section Operations.

Context {backend : Backend}.

Lemma affine_zero_scale (key : Key) :
  forall (ms ss : Array) (i : nat),
    (length ms <= length ss)%nat ->
    Forall (fun s => s = 0) ss ->
    affine i ms ss key = ms.
Proof.
  induction ms as [|m ms IH]; intros ss i Hlen Hs.
  - reflexivity.
  - destruct ss as [|s ss]; [simpl in Hlen; lia |].
    inversion Hs as [|? ? Hs0 Hs']; subst.
    simpl. rewrite IH by (simpl in Hlen; try lia; assumption).
    f_equal. lra.
Qed.

Lemma jnp_split2_lengths (x : Array) :
  (length (fst (jnp_split2 x)) <= length (snd (jnp_split2 x)))%nat.
Proof.
  unfold jnp_split2. cbn [fst snd]. rewrite length_firstn, length_skipn.
  pose proof (Nat.Div0.mul_div_le (length x) 2). lia.
Qed.

(** C2: the scalar that [reward] returns is the decoding of the logits it
    returns with it, under the model's [symlog_min], [symlog_max] and
    [num_bins]; and the values that [V] returns are, member by member, the
    decodings of the rows of logits it returns. *)
Theorem decoded_scalar_matches_logits (self : WorldModel) (z a : Array)
    (params : PyTree) (key : Key) :
  fst (reward self z a params)
  = two_hot_inv (snd (reward self z a params))
      (symlog_min self) (symlog_max self) (num_bins self) /\
  fst (V self z params key)
  = map (fun logits => two_hot_inv logits
           (symlog_min self) (symlog_max self) (num_bins self))
      (snd (V self z params key)) /\
  snd (reward self z a params) = apply_fn (reward_model self) params (z ++ a) /\
  snd (V self z params key) = apply_fn (value_model self) params z key.
Proof.
  unfold reward, V. simpl. repeat split.
Qed.

(** C9: [encode] maps the symmetric signed-log transform over every leaf of
    the observation exactly when the model has [symlog_obs] set and passes
    the observation as it is otherwise, then runs the encoder's forward
    function, to which alone the key goes, then the simplex projector with
    group size [simnorm_dim]. *)
Theorem encode_pipeline (self : WorldModel) (obs params : PyTree)
    (key : Key) :
  encode self obs params key
  = simnorm
      (apply_fn (encoder self) params
         (if symlog_obs self then tree_map (map symlog) obs else obs) key)
      (simnorm_dim self) /\
  leaves (tree_map (map symlog) obs) = map (map symlog) (leaves obs).
Proof.
  split; [reflexivity | apply leaves_tree_map].
Qed.

(** C3: when the group size is positive and divides [latent_dim], and the
    encoder and the dynamics head emit [latent_dim] entries, the outputs of
    [encode] and of [next] have length [latent_dim] and every contiguous
    block of [simnorm_dim] entries is non-negative and sums to one; so does
    the output of [next] on the output of [encode]. *)
Theorem latent_simplex_invariant (self : WorldModel) (obs params : PyTree)
    (key : Key) (z a : Array) (dynamics_params : PyTree) :
  (0 < simnorm_dim self)%nat ->
  (latent_dim self mod simnorm_dim self = 0)%nat ->
  (forall p o k, length (apply_fn (encoder self) p o k) = latent_dim self) ->
  (forall p x, length (apply_fn (dynamics_model self) p x)
               = latent_dim self) ->
  let z0 := encode self obs params key in
  length z0 = latent_dim self /\
  simplex_blocks (simnorm_dim self) z0 /\
  length (next self z a dynamics_params) = latent_dim self /\
  simplex_blocks (simnorm_dim self) (next self z a dynamics_params) /\
  length (next self z0 a dynamics_params) = latent_dim self /\
  simplex_blocks (simnorm_dim self) (next self z0 a dynamics_params).
Proof.
  intros Hpos Hdiv Henc Hdyn.
  assert (Hm : latent_dim self
               = (latent_dim self / simnorm_dim self * simnorm_dim self)%nat).
  { pose proof (Nat.div_mod_eq (latent_dim self) (simnorm_dim self)). nia. }
  assert (Hsim : forall v, length v = latent_dim self ->
            length (simnorm v (simnorm_dim self)) = latent_dim self /\
            simplex_blocks (simnorm_dim self) (simnorm v (simnorm_dim self))).
  { intros v Hv.
    destruct (simnorm_simplex v (simnorm_dim self)
                (latent_dim self / simnorm_dim self) Hpos) as [Hl Hb].
    - rewrite Hv. exact Hm.
    - split; [rewrite Hl; exact Hv | exact Hb]. }
  unfold encode, next. cbv zeta.
  destruct (Hsim _ (Henc params
              (if symlog_obs self then tree_map (map symlog) obs else obs)
              key)) as [L0 B0].
  destruct (Hsim _ (Hdyn dynamics_params (z ++ a))) as [L1 B1].
  destruct (Hsim _ (Hdyn dynamics_params
              (simnorm
                 (apply_fn (encoder self) params
                    (if symlog_obs self then tree_map (map symlog) obs
                     else obs) key)
                 (simnorm_dim self) ++ a))) as [L2 B2].
  repeat (split; [assumption |]). assumption.
Qed.

(** C4: with [std_scale = 0] the action that [sample_actions] returns is the
    mean it returns, whatever the key. *)
Theorem zero_scale_returns_mean (self : WorldModel) (z : Array)
    (params : PyTree) (key : Key) :
  out_action (sample_actions self z params 0 key)
  = out_mean (sample_actions self z params 0 key).
Proof.
  unfold sample_actions, out_action, out_mean.
  pose proof (jnp_split2_lengths (apply_fn (policy_model self) params z))
    as Hlen.
  destruct (jnp_split2 (apply_fn (policy_model self) params z))
    as [mean log_std].
  simpl in *. unfold sample. simpl.
  rewrite affine_zero_scale.
  - rewrite map_map. apply map_ext. intros m. apply clip_id.
    pose proof (tanh_bounds m). lra.
  - rewrite !length_map. exact Hlen.
  - apply Forall_forall. intros s Hs.
    apply in_map_iff in Hs. destruct Hs as [l [<- _]]. lra.
Qed.

(** C6: every coordinate of the action and of the mean that
    [sample_actions] returns lies in [[-1, 1]], the mean being the
    hyperbolic tangent of the first half of the policy head's output, and
    every coordinate of the log-std lies in
    [[MIN_LOG_STD, MAX_LOG_STD] = [-5, 1]], being
    [MIN_LOG_STD + (MAX_LOG_STD - MIN_LOG_STD) * 0.5 * (tanh l + 1)] of the
    second half. *)
Theorem policy_output_ranges (self : WorldModel) (z : Array)
    (params : PyTree) (std_scale : R) (key : Key) :
  let out := sample_actions self z params std_scale key in
  let raw := jnp_split2 (apply_fn (policy_model self) params z) in
  Forall (fun x => -1 <= x <= 1) (out_action out) /\
  Forall (fun x => -1 <= x <= 1) (out_mean out) /\
  Forall (fun x => MIN_LOG_STD <= x <= MAX_LOG_STD) (out_log_std out) /\
  out_mean out = map tanh (fst raw) /\
  out_log_std out
  = map (fun l => MIN_LOG_STD + (MAX_LOG_STD - MIN_LOG_STD) *
                  0.5 * (tanh l + 1)) (snd raw) /\
  MIN_LOG_STD = -5 /\ MAX_LOG_STD = 1.
Proof.
  unfold sample_actions, out_action, out_mean, out_log_std.
  destruct (jnp_split2 (apply_fn (policy_model self) params z))
    as [mean log_std].
  simpl. repeat split; try reflexivity.
  - apply Forall_forall. intros x Hx.
    apply in_map_iff in Hx. destruct Hx as [y [<- _]]. apply clip_bounds.
  - apply Forall_forall. intros x Hx.
    apply in_map_iff in Hx. destruct Hx as [y [<- _]].
    pose proof (tanh_bounds y). lra.
  - apply Forall_forall. intros x Hx.
    apply in_map_iff in Hx. destruct Hx as [l [<- _]].
    pose proof (tanh_bounds l). unfold MIN_LOG_STD, MAX_LOG_STD. lra.
Qed.

(** C7: the log-probability that [sample_actions] returns is the log-density
    of the diagonal Gaussian with the returned mean and the standard
    deviation [std_scale * exp log_std], taken at the sample as drawn; the
    returned action is that sample clipped to [[-1, 1]], and the clip enters
    the log-probability nowhere.  For a positive [std_scale] its exponential
    is the product of the coordinates' Gaussian densities at the sample. *)
Theorem log_prob_at_unclipped_sample (self : WorldModel) (z : Array)
    (params : PyTree) (std_scale : R) (key : Key) :
  0 < std_scale ->
  let out := sample_actions self z params std_scale key in
  let std := map (fun l => std_scale * exp l) (out_log_std out) in
  let dist := mkMVN (out_mean out) std in
  let x := sample dist key in
  out_action out = map (clip (-1) 1) x /\
  out_log_prob out = log_prob dist x /\
  exp (out_log_prob out) = joint_density (out_mean out) std x.
Proof.
  intros Hscale.
  unfold sample_actions, out_action, out_mean, out_log_std, out_log_prob.
  destruct (jnp_split2 (apply_fn (policy_model self) params z))
    as [mean log_std].
  simpl. repeat split.
  unfold log_prob. simpl. apply exp_log_prob_sum.
  apply Forall_forall. intros s Hs.
  apply in_map_iff in Hs. destruct Hs as [l [<- _]].
  apply Rmult_lt_0_compat; [exact Hscale | apply exp_pos].
Qed.


End Operations.

(** ** The demonstration configuration *)

Lemma demo_create_returns :
  exists h', demo_create false demo_heap = Some (demo_model, h').
Proof.
  unfold demo_create, create. simpl. eexists. reflexivity.
Qed.

(** C3 on the demonstration model. *)
Lemma latent_simplex_invariant_witness :
  let z0 := @encode zero_backend demo_model (Leaf [0; 0; 0]) (Node []) [] in
  length z0 = 8%nat /\
  simplex_blocks 4 z0 /\
  simplex_blocks 4 (@next zero_backend demo_model z0 [0; 0] (Node [])).
Proof.
  destruct (@latent_simplex_invariant zero_backend demo_model
              (Leaf [0; 0; 0]) (Node []) [] [] [0; 0] (Node []))
    as (H1 & H2 & _ & _ & _ & H3).
  - simpl. lia.
  - reflexivity.
  - intros p o k. reflexivity.
  - intros p x. reflexivity.
  - cbv zeta. split; [exact H1 |]. split; [exact H2 | exact H3].
Defined.

(** C7 on the demonstration model, at [std_scale = 1]. *)
Lemma log_prob_at_unclipped_sample_witness :
  let out := @sample_actions zero_backend demo_model (repeat 0 8) (Node [])
               1 [] in
  let std := map (fun l => 1 * exp l) (out_log_std out) in
  exp (out_log_prob out)
  = joint_density (out_mean out) std
      (@sample zero_backend (mkMVN (out_mean out) std) []).
Proof.
  apply (@log_prob_at_unclipped_sample zero_backend demo_model (repeat 0 8)
           (Node []) 1 []).
  lra.
Defined.


(** ** More on construction *)

Section ConstructionFacts.

Context {backend : Backend}.

Variables (adim ldim nnets nbins sdim : nat).
Variables (vdrop smin smax lrate gnorm : R).
Variables (sobs tab : bool) (dt : Dtype).
Variable enc : TrainState EncoderFn.

Let run (pc : bool) (key : Key) : M WorldModel :=
  create adim enc ldim vdrop nnets nbins smin smax sdim pc sobs
    lrate gnorm tab dt key.

(** X1: the model that [create] returns carries the continuation head
    exactly when [predict_continues] was passed as true, and records the
    flag as passed. *)
Theorem continue_head_follows_flag (pc : bool) (key : Key) (h h' : Heap)
    (wm : WorldModel) :
  run pc key h = Some (wm, h') ->
  predict_continues wm = pc /\
  (continue_model wm <> None <-> pc = true).
Proof.
  intros H. apply create_inv in H.
  destruct H as (dk & rk & vk & pk & ck & vpk & vdk & dv & rv & pv & vv
                 & cont & cm & _ & _ & _ & _ & _ & _ & Hc & _ & ->).
  cbn [predict_continues continue_model].
  split; [reflexivity |].
  destruct pc.
  - destruct Hc as (cv & _ & _ & ->). split; [reflexivity | discriminate].
  - destruct Hc as [_ ->].
    split; [intros Hn; exfalso; apply Hn; reflexivity | discriminate].
Qed.

(** X2: [create] returns exactly when the root key splits into five keys,
    the value key into two, and the initialisers of the dynamics, reward,
    policy and value heads succeed, and that of the continuation head too
    when [predict_continues] is set; when it is not set the continuation
    initialiser plays no part.  Neither the store nor any dimension enters
    the condition. *)
Theorem create_returns_iff (pc : bool) (key : Key) (h : Heap) :
  (exists wm h', run pc key h = Some (wm, h')) <->
  (exists dk rk vk pk ck vpk vdk,
     split key 5 = [dk; rk; vk; pk; ck] /\
     split vk 2 = [vpk; vdk] /\
     sequential_init
       [NormedLinear ldim (Some mish) None dt;
        NormedLinear ldim (Some mish) None dt;
        NormedLinear ldim None None dt]
       dk (jnp_zeros (ldim + adim)) <> None /\
     sequential_init
       [NormedLinear ldim (Some mish) None dt;
        NormedLinear ldim (Some mish) None dt;
        Dense nbins zeros dt]
       rk (jnp_zeros (ldim + adim)) <> None /\
     sequential_init
       [NormedLinear ldim (Some mish) None dt;
        NormedLinear ldim (Some mish) None dt;
        Dense (2 * adim) (truncated_normal 0.02) dt]
       pk (jnp_zeros ldim) <> None /\
     ensemble_init
       [NormedLinear ldim (Some mish) (Some vdrop) dt;
        NormedLinear ldim (Some mish) (Some vdrop) dt;
        Dense nbins zeros dt]
       nnets vpk vdk (jnp_zeros ldim) <> None /\
     (pc = true ->
      sequential_init
        [NormedLinear ldim (Some mish) None dt;
         NormedLinear ldim (Some mish) None dt;
         Dense 1 zeros dt]
        ck (jnp_zeros ldim) <> None)).
Proof.
  split.
  - intros (wm & h' & H). apply create_inv in H.
    destruct H as (dk & rk & vk & pk & ck & vpk & vdk & dv & rv & pv & vv
                   & cont & cm & Es & Es2 & Ed & Er & Ep & Ev & Hc & _ & _).
    exists dk, rk, vk, pk, ck, vpk, vdk.
    rewrite Ed, Er, Ep, Ev.
    repeat (split; [first [assumption | discriminate] |]).
    intros ->. destruct Hc as (cv & -> & _). discriminate.
  - intros (dk & rk & vk & pk & ck & vpk & vdk & Es & Es2 & Hd & Hr & Hp
            & Hv & Hc).
    unfold run, create. rewrite Es.
    cbv beta iota zeta
      delta [bind init_params deepcopy read alloc lift ret raise unpack5
             params TrainState_create].
    destruct (sequential_init _ dk _) as [dv|]; [| congruence].
    destruct (sequential_init _ rk _) as [rv|]; [| congruence].
    destruct (sequential_init _ pk _) as [pv|]; [| congruence].
    rewrite Es2. cbv beta iota zeta delta [unpack2 ret].
    destruct (ensemble_init _ _ vpk vdk _) as [vv|]; [| congruence].
    rewrite nth_error_snoc.
    destruct pc.
    + destruct (sequential_init _ ck _) as [cv|];
        [| exfalso; apply Hc; reflexivity].
      eexists. eexists. reflexivity.
    + eexists. eexists. reflexivity.
Qed.

(** X3: [create] only adds to the store: the store it leaves is the one it
    was given followed by five new parameter objects, six with the
    continuation head, so every object that existed before (the encoder's
    parameters among them) is as it was; and the encoder is stored in the
    model as passed. *)
Theorem create_extends_store (pc : bool) (key : Key) (h h' : Heap)
    (wm : WorldModel) :
  run pc key h = Some (wm, h') ->
  encoder wm = enc /\
  (exists fresh,
     h' = h ++ fresh /\ length fresh = if pc then 6%nat else 5%nat) /\
  (forall r, (r < length h)%nat -> nth_error h' r = nth_error h r).
Proof.
  intros H. apply create_inv in H.
  destruct H as (dk & rk & vk & pk & ck & vpk & vdk & dv & rv & pv & vv
                 & cont & cm & _ & _ & _ & _ & _ & _ & Hc & -> & ->).
  split; [reflexivity |]. split.
  - exists ([dv; rv; pv; vv; vv] ++ cont). split; [reflexivity |].
    destruct pc.
    + destruct Hc as (cv & _ & -> & _). reflexivity.
    + destruct Hc as [-> _]. reflexivity.
  - intros r Hr. apply nth_error_app1. exact Hr.
Qed.

(** X4: every head that [create] builds refers to a parameter object of its
    own: the references of the dynamics, reward, policy, value, target-value
    and continuation heads are pairwise distinct, none of them existed in
    the store before the call, and each is defined in the store that
    [create] leaves. *)
Theorem create_heads_own_objects (pc : bool) (key : Key) (h h' : Heap)
    (wm : WorldModel) :
  run pc key h = Some (wm, h') ->
  let refs :=
    [params (dynamics_model wm); params (reward_model wm);
     params (policy_model wm); params (value_model wm);
     params (target_value_model wm)]
    ++ match continue_model wm with
       | Some c => [params c]
       | None => []
       end in
  NoDup refs /\
  Forall (fun r => (length h <= r < length h')%nat) refs.
Proof.
  intros H. apply create_inv in H.
  destruct H as (dk & rk & vk & pk & ck & vpk & vdk & dv & rv & pv & vv
                 & cont & cm & _ & _ & _ & _ & _ & _ & Hc & -> & ->).
  cbn [dynamics_model reward_model policy_model value_model
       target_value_model continue_model params TrainState_create].
  destruct pc.
  - destruct Hc as (cv & _ & -> & ->).
    cbn [params TrainState_create app]. split.
    + repeat constructor; simpl; lia.
    + rewrite length_app. simpl. repeat constructor; lia.
  - destruct Hc as [-> ->]. cbn [app]. split.
    + repeat constructor; simpl; lia.
    + rewrite length_app. simpl. repeat constructor; lia.
Qed.

(** X5: the dynamics, reward, policy and value heads (and the continuation
    head when present) are given the optimiser chain zero_nans,
    clip_by_global_norm(max_grad_norm), adamw(learning_rate), in this order,
    the target-value head is given the transformation that does nothing, and
    every head starts at step 0. *)
Theorem create_optimizers (pc : bool) (key : Key) (h h' : Heap)
    (wm : WorldModel) :
  run pc key h = Some (wm, h') ->
  let optimizer :=
    chain [zero_nans; clip_by_global_norm gnorm; adamw lrate] in
  tx (dynamics_model wm) = optimizer /\
  tx (reward_model wm) = optimizer /\
  tx (policy_model wm) = optimizer /\
  tx (value_model wm) = optimizer /\
  tx (target_value_model wm) = no_op /\
  match continue_model wm with
  | Some c => tx c = optimizer /\ step c = 0%nat
  | None => True
  end /\
  step (dynamics_model wm) = 0%nat /\
  step (reward_model wm) = 0%nat /\
  step (policy_model wm) = 0%nat /\
  step (value_model wm) = 0%nat /\
  step (target_value_model wm) = 0%nat.
Proof.
  intros H. apply create_inv in H.
  destruct H as (dk & rk & vk & pk & ck & vpk & vdk & dv & rv & pv & vv
                 & cont & cm & _ & _ & _ & _ & _ & _ & Hc & _ & ->).
  cbn [dynamics_model reward_model policy_model value_model
       target_value_model continue_model tx step TrainState_create].
  repeat (split; [reflexivity |]).
  split; [| repeat split].
  destruct pc.
  - destruct Hc as (cv & _ & _ & ->). split; reflexivity.
  - destruct Hc as [_ ->]. exact I.
Qed.

End ConstructionFacts.

Section Settings.

Context {backend : Backend}.

(** X6: the arguments that [create] only records ([simnorm_dim],
    [symlog_min], [symlog_max], [symlog_obs]), the optimiser settings
    ([learning_rate], [max_grad_norm]) and [tabulate] have no influence on
    the parameters: when a call returns, the call with other values for
    these arguments returns too, leaves the same store, and gives every head
    the same forward function and the same parameter object. *)
Theorem recorded_settings_leave_parameters
    (adim ldim nnets nbins : nat) (vdrop : R) (pc : bool) (dt : Dtype)
    (enc : TrainState EncoderFn) (key : Key) (h : Heap)
    (sdim sdim' : nat) (smin smin' smax smax' lrate lrate' gnorm gnorm' : R)
    (sobs sobs' tab tab' : bool) (wm : WorldModel) (h' : Heap) :
  create adim enc ldim vdrop nnets nbins smin smax sdim pc sobs
    lrate gnorm tab dt key h = Some (wm, h') ->
  exists wm',
    create adim enc ldim vdrop nnets nbins smin' smax' sdim' pc sobs'
      lrate' gnorm' tab' dt key h = Some (wm', h') /\
    apply_fn (dynamics_model wm') = apply_fn (dynamics_model wm) /\
    params (dynamics_model wm') = params (dynamics_model wm) /\
    apply_fn (reward_model wm') = apply_fn (reward_model wm) /\
    params (reward_model wm') = params (reward_model wm) /\
    apply_fn (policy_model wm') = apply_fn (policy_model wm) /\
    params (policy_model wm') = params (policy_model wm) /\
    apply_fn (value_model wm') = apply_fn (value_model wm) /\
    params (value_model wm') = params (value_model wm) /\
    apply_fn (target_value_model wm') = apply_fn (target_value_model wm) /\
    params (target_value_model wm') = params (target_value_model wm) /\
    option_map apply_fn (continue_model wm')
    = option_map apply_fn (continue_model wm) /\
    option_map params (continue_model wm')
    = option_map params (continue_model wm).
Proof.
  intros H. unfold create in *.
  destruct (split key 5) as [|dk [|rk [|vk [|pk [|ck [|k6 ks]]]]]];
    try discriminate H.
  cbv beta iota zeta
    delta [bind init_params deepcopy read alloc lift ret raise unpack5
           params TrainState_create] in H |- *.
  destruct (sequential_init _ dk _) as [dv|]; [| discriminate H].
  destruct (sequential_init _ rk _) as [rv|]; [| discriminate H].
  destruct (sequential_init _ pk _) as [pv|]; [| discriminate H].
  destruct (split vk 2) as [|vpk [|vdk [|k3 ks]]]; try discriminate H.
  cbv beta iota zeta delta [unpack2 ret] in H |- *.
  destruct (ensemble_init _ _ vpk vdk _) as [vv|]; [| discriminate H].
  rewrite nth_error_snoc in H |- *.
  destruct pc.
  - destruct (sequential_init _ ck _) as [cv|]; [| discriminate H].
    injection H as <- <-. eexists. split; [reflexivity |]. repeat split.
  - injection H as <- <-. eexists. split; [reflexivity |]. repeat split.
Qed.

(** X7: the dynamics and the policy heads depend on [action_dim],
    [latent_dim], [dtype], the key and the store alone.  Two calls that agree
    on these and differ in anything else ([num_bins], [value_dropout],
    [num_value_nets], the encoder, the flags, the optimiser settings) give
    these two heads the same forward functions, the same references and the
    same parameter values. *)
Theorem dynamics_and_policy_dependencies
    (adim ldim : nat) (dt : Dtype) (key : Key) (h : Heap)
    (nnets nnets' nbins nbins' sdim sdim' : nat)
    (vdrop vdrop' smin smin' smax smax' lrate lrate' gnorm gnorm' : R)
    (pc pc' sobs sobs' tab tab' : bool) (enc enc' : TrainState EncoderFn)
    (wm wm' : WorldModel) (h1 h2 : Heap) :
  create adim enc ldim vdrop nnets nbins smin smax sdim pc sobs
    lrate gnorm tab dt key h = Some (wm, h1) ->
  create adim enc' ldim vdrop' nnets' nbins' smin' smax' sdim' pc' sobs'
    lrate' gnorm' tab' dt key h = Some (wm', h2) ->
  apply_fn (dynamics_model wm') = apply_fn (dynamics_model wm) /\
  params (dynamics_model wm') = params (dynamics_model wm) /\
  nth_error h2 (params (dynamics_model wm'))
  = nth_error h1 (params (dynamics_model wm)) /\
  apply_fn (policy_model wm') = apply_fn (policy_model wm) /\
  params (policy_model wm') = params (policy_model wm) /\
  nth_error h2 (params (policy_model wm'))
  = nth_error h1 (params (policy_model wm)).
Proof.
  intros H1 H2. apply create_inv in H1. apply create_inv in H2.
  destruct H1 as (dk & rk & vk & pk & ck & vpk & vdk & dv & rv & pv & vv
                  & cont & cm & Es & _ & Ed & _ & Ep & _ & _ & -> & ->).
  destruct H2 as (dk' & rk' & vk' & pk' & ck' & vpk' & vdk' & dv' & rv' & pv'
                  & vv' & cont' & cm' & Es' & _ & Ed' & _ & Ep' & _ & _
                  & -> & ->).
  rewrite Es in Es'. injection Es' as <- <- <- <- <-.
  rewrite Ed in Ed'. injection Ed' as <-.
  rewrite Ep in Ep'. injection Ep' as <-.
  cbn [dynamics_model policy_model params apply_fn TrainState_create].
  repeat (split; [reflexivity |]).
  assert (N0 : forall rest, nth_error (h ++ dv :: rest) (length h) = Some dv).
  { intros rest. rewrite nth_error_app2 by lia.
    rewrite Nat.sub_diag. reflexivity. }
  assert (N2 : forall a b rest,
            nth_error (h ++ a :: b :: pv :: rest) (2 + length h) = Some pv).
  { intros a b rest. rewrite nth_error_app2 by lia.
    replace (2 + length h - length h)%nat with 2%nat by lia. reflexivity. }
  cbn [app]. rewrite !N0, !N2. repeat split.
Qed.

End Settings.

(** ** More on [sample_actions] *)

Lemma clip_nonexpansive (m x : R) :
  -1 <= m <= 1 -> Rabs (clip (-1) 1 x - m) <= Rabs (x - m).
Proof.
  intros Hm. unfold clip, Rmax, Rmin.
  destruct (Rle_dec x 1); destruct (Rle_dec (-1) _);
    unfold Rabs; repeat destruct (Rcase_abs _); lra.
Qed.

Section Sampling.

Context {backend : Backend}.

Lemma affine_length (key : Key) :
  forall (ms ss : Array) (i : nat),
    length (affine i ms ss key) = Nat.min (length ms) (length ss).
Proof.
  induction ms as [|m ms IH]; intros ss i.
  - reflexivity.
  - destruct ss as [|s ss]; [reflexivity |]. simpl. rewrite IH. reflexivity.
Qed.

Lemma clipped_affine_deviation (key : Key) (bound : R) :
  0 <= bound ->
  forall (ms ss : Array) (j i : nat),
    (length ms <= length ss)%nat ->
    Forall (fun m => -1 <= m <= 1) ms ->
    Forall (fun s => Rabs s <= bound) ss ->
    Rabs (nth i (map (clip (-1) 1) (affine j ms ss key)) 0 - nth i ms 0)
    <= bound * Rabs (normal key (j + i)).
Proof.
  intros Hb. induction ms as [|m ms IH]; intros ss j i Hlen Hms Hss.
  - simpl. destruct i; rewrite Rminus_0_r, Rabs_R0;
      apply Rmult_le_pos; try exact Hb; apply Rabs_pos.
  - destruct ss as [|s ss]; [simpl in Hlen; lia |].
    inversion Hms as [|? ? Hm Hms']; subst.
    inversion Hss as [|? ? Hs Hss']; subst.
    simpl. destruct i as [|i].
    + rewrite Nat.add_0_r.
      eapply Rle_trans; [apply clip_nonexpansive; exact Hm |].
      replace (m + s * normal key j - m) with (s * normal key j) by ring.
      rewrite Rabs_mult. apply Rmult_le_compat_r; [apply Rabs_pos | exact Hs].
    + replace (j + S i)%nat with (S j + i)%nat by lia.
      apply IH; [simpl in Hlen; lia | assumption | assumption].
Qed.

(** X8: when the policy head emits [2 * n] entries, the action, the mean and
    the log-std that [sample_actions] returns have [n] entries each, and the
    head's output is the raw mean followed by the raw log-std. *)
Theorem sample_actions_shapes (self : WorldModel) (z : Array)
    (params : PyTree) (std_scale : R) (key : Key) (n : nat) :
  length (apply_fn (policy_model self) params z) = (2 * n)%nat ->
  let out := sample_actions self z params std_scale key in
  let raw := jnp_split2 (apply_fn (policy_model self) params z) in
  length (out_action out) = n /\
  length (out_mean out) = n /\
  length (out_log_std out) = n /\
  fst raw ++ snd raw = apply_fn (policy_model self) params z.
Proof.
  intros Hlen.
  assert (Hhalf : (length (apply_fn (policy_model self) params z) / 2)%nat
                  = n).
  { rewrite Hlen, Nat.mul_comm. apply Nat.div_mul. discriminate. }
  unfold sample_actions, out_action, out_mean, out_log_std, jnp_split2.
  cbv zeta. cbn [fst snd]. rewrite Hhalf.
  unfold sample. cbn [loc scale_diag].
  rewrite !length_map, affine_length, !length_map.
  rewrite length_firstn, length_skipn, Hlen.
  repeat split; try lia. apply firstn_skipn.
Qed.

(** X9: the mean and the log-std that [sample_actions] returns depend on
    neither the key nor [std_scale]; and at [std_scale = 0] the action does
    not depend on the key either. *)
Theorem mean_and_log_std_ignore_key (self : WorldModel) (z : Array)
    (params : PyTree) (s1 s2 : R) (k1 k2 : Key) :
  out_mean (sample_actions self z params s1 k1)
  = out_mean (sample_actions self z params s2 k2) /\
  out_log_std (sample_actions self z params s1 k1)
  = out_log_std (sample_actions self z params s2 k2) /\
  out_action (sample_actions self z params 0 k1)
  = out_action (sample_actions self z params 0 k2).
Proof.
  unfold sample_actions, out_action, out_mean, out_log_std.
  pose proof (jnp_split2_lengths (apply_fn (policy_model self) params z))
    as Hlen.
  destruct (jnp_split2 (apply_fn (policy_model self) params z))
    as [mean log_std].
  cbn [fst snd] in *. split; [reflexivity |]. split; [reflexivity |].
  unfold sample. cbn [loc scale_diag].
  assert (Hz : Forall (fun s => s = 0)
                 (map (fun l => 0 * exp l)
                    (map (fun l => MIN_LOG_STD + (MAX_LOG_STD - MIN_LOG_STD) *
                                   0.5 * (tanh l + 1)) log_std))).
  { apply Forall_forall. intros s Hs.
    apply in_map_iff in Hs. destruct Hs as [l [<- _]]. lra. }
  rewrite !affine_zero_scale;
    first [reflexivity | exact Hz | rewrite !length_map; exact Hlen].
Qed.

(** X10: clipping never moves the action away from the mean: every
    coordinate of the returned action differs from that of the returned mean
    by at most [|std_scale| * e * |eps|], where [eps] is the coordinate's
    standard normal draw and [e = exp MAX_LOG_STD]. *)
Theorem action_deviation_bound (self : WorldModel) (z : Array)
    (params : PyTree) (std_scale : R) (key : Key) (i : nat) :
  let out := sample_actions self z params std_scale key in
  Rabs (nth i (out_action out) 0 - nth i (out_mean out) 0)
  <= Rabs std_scale * exp MAX_LOG_STD * Rabs (normal key i).
Proof.
  unfold sample_actions, out_action, out_mean.
  pose proof (jnp_split2_lengths (apply_fn (policy_model self) params z))
    as Hlen.
  destruct (jnp_split2 (apply_fn (policy_model self) params z))
    as [mean log_std].
  cbn [fst snd] in *. unfold sample. cbn [loc scale_diag].
  change i with (0 + i)%nat at 3.
  apply clipped_affine_deviation.
  - apply Rmult_le_pos; [apply Rabs_pos | left; apply exp_pos].
  - rewrite !length_map. exact Hlen.
  - apply Forall_forall. intros m Hm.
    apply in_map_iff in Hm. destruct Hm as [y [<- _]].
    pose proof (tanh_bounds y). lra.
  - apply Forall_forall. intros s Hs.
    apply in_map_iff in Hs. destruct Hs as [l' [<- Hl']].
    apply in_map_iff in Hl'. destruct Hl' as [l [<- _]].
    rewrite Rabs_mult. apply Rmult_le_compat_l; [apply Rabs_pos |].
    rewrite Rabs_right by (left; apply exp_pos).
    pose proof (tanh_bounds l) as Ht.
    set (v := MIN_LOG_STD + (MAX_LOG_STD - MIN_LOG_STD) * 0.5 * (tanh l + 1)).
    assert (Hv : v <= MAX_LOG_STD)
      by (unfold v, MIN_LOG_STD, MAX_LOG_STD; lra).
    destruct Hv as [Hlt | ->]; [left; apply exp_increasing; exact Hlt | lra].
Qed.

End Sampling.

(** ** What the operations read *)

Section Frame.

Context {backend : Backend}.

(** X11: the five operations read the forward functions of the encoder and
    of the dynamics, reward, policy and value heads and the settings
    [simnorm_dim], [symlog_obs], [symlog_min], [symlog_max] and [num_bins],
    and nothing else of the model: the parameters stored in the heads, their
    steps and optimisers, the target-value head, the continuation head and
    the remaining settings never enter a result; parameters come from the
    argument alone. *)
Theorem operations_read_forward_functions_only (self self' : WorldModel) :
  apply_fn (encoder self') = apply_fn (encoder self) ->
  apply_fn (dynamics_model self') = apply_fn (dynamics_model self) ->
  apply_fn (reward_model self') = apply_fn (reward_model self) ->
  apply_fn (policy_model self') = apply_fn (policy_model self) ->
  apply_fn (value_model self') = apply_fn (value_model self) ->
  simnorm_dim self' = simnorm_dim self ->
  symlog_obs self' = symlog_obs self ->
  symlog_min self' = symlog_min self ->
  symlog_max self' = symlog_max self ->
  num_bins self' = num_bins self ->
  (forall obs p k, encode self' obs p k = encode self obs p k) /\
  (forall z a p, next self' z a p = next self z a p) /\
  (forall z a p, reward self' z a p = reward self z a p) /\
  (forall z p s k, sample_actions self' z p s k = sample_actions self z p s k) /\
  (forall z p k, V self' z p k = V self z p k).
Proof.
  intros He Hd Hr Hp Hv Hsd Hso Hmin Hmax Hnb.
  unfold encode, next, reward, sample_actions, V.
  rewrite He, Hd, Hr, Hp, Hv, Hsd, Hso, Hmin, Hmax, Hnb.
  repeat split.
Qed.

End Frame.

(** ** The log-probability in terms of the noise *)

Section Reparameterisation.

Context {backend : Backend}.

Lemma log_prob_sum_affine (key : Key) (std_scale : R) :
  0 < std_scale ->
  forall (ls ms : Array) (j : nat),
    length ms = length ls ->
    let ss := map (fun l => std_scale * exp l) ls in
    log_prob_sum ms ss (affine j ms ss key)
    = noise_log_prob j std_scale ls key.
Proof.
  intros Hs. induction ls as [|l ls IH]; intros ms j Hlen.
  - destruct ms; [reflexivity | discriminate Hlen].
  - destruct ms as [|m ms]; [discriminate Hlen |].
    injection Hlen as Hlen. cbv zeta in *. simpl.
    rewrite IH by exact Hlen. f_equal.
    unfold normal_log_prob.
    pose proof (exp_pos l) as He.
    rewrite ln_mult, ln_exp by assumption.
    replace ((m + std_scale * exp l * normal key j - m) / (std_scale * exp l))
      with (normal key j) by (field; lra).
    reflexivity.
Qed.

(** X12: for a positive [std_scale] and a policy head emitting [2 * n]
    entries, the log-probability that [sample_actions] returns is the sum
    over the coordinates of
    [- eps² / 2 - (ln std_scale + log_std) - ln (2 * PI) / 2], where [eps] is
    the coordinate's standard normal draw: it depends on the noise and on the
    returned log-std, and not on the mean. *)
Theorem log_prob_in_terms_of_noise (self : WorldModel) (z : Array)
    (params : PyTree) (std_scale : R) (key : Key) (n : nat) :
  0 < std_scale ->
  length (apply_fn (policy_model self) params z) = (2 * n)%nat ->
  let out := sample_actions self z params std_scale key in
  out_log_prob out = noise_log_prob 0 std_scale (out_log_std out) key.
Proof.
  intros Hs Hlen.
  assert (Hhalf : (length (apply_fn (policy_model self) params z) / 2)%nat
                  = n).
  { rewrite Hlen, Nat.mul_comm. apply Nat.div_mul. discriminate. }
  unfold sample_actions, out_log_prob, out_log_std, jnp_split2.
  cbv zeta. cbn [fst snd]. rewrite Hhalf.
  unfold log_prob, sample. cbn [loc scale_diag].
  apply (log_prob_sum_affine key std_scale Hs).
  rewrite !length_map, length_firstn, length_skipn, Hlen. lia.
Qed.

End Reparameterisation.

(** ** The extras on the demonstration configuration *)

Lemma continue_head_follows_flag_witness :
  exists wm h',
    demo_create true demo_heap = Some (wm, h') /\
    predict_continues wm = true /\
    (continue_model wm <> None <-> true = true).
Proof.
  destruct (demo_create true demo_heap) as [[wm h']|] eqn:E;
    [| discriminate E].
  exists wm, h'. split; [reflexivity |].
  unfold demo_create in E. apply continue_head_follows_flag in E. exact E.
Defined.

Lemma create_extends_store_witness :
  exists wm h',
    demo_create true demo_heap = Some (wm, h') /\
    encoder wm = demo_encoder /\
    length h' = 7%nat /\
    nth_error h' 0 = Some (Node []).
Proof.
  destruct (demo_create true demo_heap) as [[wm h']|] eqn:E;
    [| discriminate E].
  exists wm, h'. split; [reflexivity |].
  unfold demo_create in E. apply create_extends_store in E.
  destruct E as (He & (fresh & -> & Hlen) & Hold).
  split; [exact He |]. split.
  - rewrite length_app, Hlen. reflexivity.
  - rewrite Hold by (simpl; lia). reflexivity.
Defined.

Lemma create_heads_own_objects_witness :
  exists wm h',
    demo_create true demo_heap = Some (wm, h') /\
    NoDup
      ([params (dynamics_model wm); params (reward_model wm);
        params (policy_model wm); params (value_model wm);
        params (target_value_model wm)]
       ++ match continue_model wm with
          | Some c => [params c]
          | None => []
          end).
Proof.
  destruct (demo_create true demo_heap) as [[wm h']|] eqn:E;
    [| discriminate E].
  exists wm, h'. split; [reflexivity |].
  unfold demo_create in E. apply create_heads_own_objects in E.
  exact (proj1 E).
Defined.

Lemma create_optimizers_witness :
  exists wm h',
    demo_create false demo_heap = Some (wm, h') /\
    tx (value_model wm)
    = chain [zero_nans; clip_by_global_norm 20; adamw 0.0003] /\
    tx (target_value_model wm) = no_op.
Proof.
  destruct (demo_create false demo_heap) as [[wm h']|] eqn:E;
    [| discriminate E].
  exists wm, h'. split; [reflexivity |].
  unfold demo_create in E. apply create_optimizers in E.
  destruct E as (_ & _ & _ & Hv & Ht & _).
  split; [exact Hv | exact Ht].
Defined.

Lemma recorded_settings_leave_parameters_witness :
  exists wm h' wm',
    demo_create false demo_heap = Some (wm, h') /\
    @create zero_backend 2 demo_encoder 8 0.01 3 11 (-5) 5 2
      false true 0.001 10 true float32 [] demo_heap = Some (wm', h') /\
    params (value_model wm') = params (value_model wm).
Proof.
  destruct (demo_create false demo_heap) as [[wm h']|] eqn:E;
    [| discriminate E].
  unfold demo_create in E.
  apply recorded_settings_leave_parameters
    with (sdim' := 2%nat) (smin' := -5) (smax' := 5) (lrate' := 0.001)
         (gnorm' := 10) (sobs' := true) (tab' := true) in E.
  destruct E as (wm' & E' & _ & _ & _ & _ & _ & _ & _ & Hv & _).
  exists wm, h', wm'. split; [reflexivity |]. split; [exact E' | exact Hv].
Defined.

Lemma dynamics_and_policy_dependencies_witness :
  exists wm h1 wm' h2,
    demo_create false demo_heap = Some (wm, h1) /\
    @create zero_backend 2 demo_encoder 8 0.5 5 21 (-5) 5 2
      true true 0.001 10 true float32 [] demo_heap = Some (wm', h2) /\
    nth_error h2 (params (policy_model wm'))
    = nth_error h1 (params (policy_model wm)).
Proof.
  destruct (demo_create false demo_heap) as [[wm h1]|] eqn:E1;
    [| discriminate E1].
  destruct (@create zero_backend 2 demo_encoder 8 0.5 5 21 (-5) 5 2
              true true 0.001 10 true float32 [] demo_heap)
    as [[wm' h2]|] eqn:E2; [| discriminate E2].
  exists wm, h1, wm', h2. split; [reflexivity |]. split; [reflexivity |].
  unfold demo_create in E1.
  eapply dynamics_and_policy_dependencies in E1; [| exact E2].
  destruct E1 as (_ & _ & _ & _ & _ & Hp). symmetry. exact Hp.
Defined.

Lemma sample_actions_shapes_witness :
  length (out_action (@sample_actions zero_backend demo_model (repeat 0 8)
                        (Node []) 1 [])) = 2%nat.
Proof.
  apply (@sample_actions_shapes zero_backend demo_model (repeat 0 8)
           (Node []) 1 [] 2).
  reflexivity.
Defined.

Lemma operations_read_forward_functions_only_witness :
  @reward zero_backend demo_model_trained (repeat 0 8) [0; 0] (Node [])
  = @reward zero_backend demo_model (repeat 0 8) [0; 0] (Node []) /\
  params (reward_model demo_model_trained)
  <> params (reward_model demo_model).
Proof.
  split; [| simpl; lia].
  apply (@operations_read_forward_functions_only zero_backend demo_model
           demo_model_trained); reflexivity.
Defined.

Lemma log_prob_in_terms_of_noise_witness :
  let out := @sample_actions zero_backend demo_model (repeat 0 8) (Node [])
               1 [] in
  out_log_prob out
  = @noise_log_prob zero_backend 0 1 (out_log_std out) [].
Proof.
  apply (@log_prob_in_terms_of_noise zero_backend demo_model (repeat 0 8)
           (Node []) 1 [] 2).
  - lra.
  - reflexivity.
Defined.
